(** * Travel Explorer API: a shallow embedding of [main.py]

    The route functions of [src/main.py] are translated one by one.  The
    [database] module they import ([create_document], [get_documents], [db])
    is not part of the sources: the handlers take it as a parameter, and the
    one place that needs its contents uses a model written from the
    specification (module [SpecDatabase]). *)

From Stdlib Require Import ZArith NArith String Ascii List.
From Stdlib Require Import Floats.PrimFloat.
From stdpp Require Import base option list gmap strings sorting pretty.

Local Open Scope string_scope.
Set Warnings "-inexact-float".

(** ** Python values *)

(** A naive [datetime.datetime], as pymongo hands it back. *)
Record datetime := mk_datetime {
  year : N; month : N; day : N;
  hour : N; minute : N; second : N; microsecond : N
}.

Global Instance datetime_eq_dec : EqDecision datetime.
Proof. solve_decision. Defined.

(** The values a stored document holds: [None], [str], [datetime] and the
    bson [ObjectId], written as the 24 hexadecimal digits [str()] prints. *)
Inductive value :=
  | VNone
  | VStr (s : string)
  | VDatetime (d : datetime)
  | VObjectId (hex : string).

Global Instance value_eq_dec : EqDecision value.
Proof. solve_decision. Defined.

(** A document (a Python [dict] with string keys). *)
Abbreviation doc := (gmap string value).

(** [f"{n:0{w}d}"]: decimal digits, zero-padded on the left to width [w]. *)
Fixpoint zeros (k : nat) : string :=
  match k with
  | O => ""
  | S k' => String "0" (zeros k')
  end.

Definition zfill (w : nat) (n : N) : string :=
  let s := pretty n in zeros (w - String.length s) ++ s.

(** [datetime.isoformat(sep)]: the fraction is printed only when the
    microsecond field is not zero. *)
Definition isoformat_sep (sep : string) (d : datetime) : string :=
  zfill 4 (year d) ++ "-" ++ zfill 2 (month d) ++ "-" ++ zfill 2 (day d)
  ++ sep
  ++ zfill 2 (hour d) ++ ":" ++ zfill 2 (minute d) ++ ":" ++ zfill 2 (second d)
  ++ (if decide (microsecond d = 0%N) then "" else "." ++ zfill 6 (microsecond d)).

Definition isoformat (d : datetime) : string := isoformat_sep "T" d.

(** [str(v)] *)
Definition py_str (v : value) : string :=
  match v with
  | VNone => "None"
  | VStr s => s
  | VDatetime d => isoformat_sep " " d
  | VObjectId hex => hex
  end.

(** [s[:n]] on a [str] held as UTF-8: the first [n] code points.  A byte in
    [0x80, 0xC0) continues the code point before it. *)
Definition is_continuation (c : ascii) : bool :=
  let n := N_of_ascii c in (128 <=? n)%N && (n <? 192)%N.

Fixpoint str_prefix (n : nat) (s : string) : string :=
  match s with
  | EmptyString => EmptyString
  | String c s' =>
      if is_continuation c then String c (str_prefix n s')
      else match n with
           | O => EmptyString
           | S n' => String c (str_prefix n' s')
           end
  end.

(** ** Exceptions and the handler monad *)

(** Instances of [Exception], the class every handler of [main.py] catches.
    A handler only ever looks at [str(e)]; [HTTPException] is the one it
    raises itself.  The signals that are not instances of [Exception]
    (KeyboardInterrupt, SystemExit) have no counterpart here. *)
Inductive exn :=
  | Exception (msg : string)
  | HTTPException (status_code : Z) (detail : string).

Definition str_exn (e : exn) : string :=
  match e with
  | Exception msg => msg
  | HTTPException c d => pretty c ++ ": " ++ d
  end.

Inductive outcome (A : Type) :=
  | Returns (a : A)
  | Raises (e : exn).
Arguments Returns {A} a.
Arguments Raises {A} e.

(** A computation over a mutable state [S] that returns or raises. *)
Definition M (S A : Type) : Type := S -> outcome A * S.

Definition ret {S A} (a : A) : M S A := fun s => (Returns a, s).

Definition raise {S A} (e : exn) : M S A := fun s => (Raises e, s).

Definition bind {S A B} (m : M S A) (f : A -> M S B) : M S B :=
  fun s =>
    match m s with
    | (Returns a, s') => f a s'
    | (Raises e, s') => (Raises e, s')
    end.

(** [try: body  except Exception as e: handler] *)
Definition try_except {S A} (body : M S A) (handler : exn -> M S A) : M S A :=
  fun s =>
    match body s with
    | (Returns a, s') => (Returns a, s')
    | (Raises e, s') => handler e s'
    end.

(** An expression that reads no state. *)
Definition lift {S A} (o : outcome A) : M S A := fun s => (o, s).

(** An assignment to the state. *)
Definition assign {S} (f : S -> S) : M S unit := fun s => (Returns tt, f s).

Declare Scope py_scope.
Delimit Scope py_scope with py.
Notation "'let*' x := m 'in' k" := (bind m (fun x => k))
  (at level 10, x name, m at level 200, k at level 200) : py_scope.
Notation "m >> k" := (bind m (fun _ => k))
  (at level 65, right associativity) : py_scope.
Local Open Scope py_scope.

(** What FastAPI sends for a route function's outcome. *)
Inductive http_response (A : Type) :=
  | Response (status : Z) (body : A)
  | ErrorResponse (status : Z) (detail : string).
Arguments Response {A} status body.
Arguments ErrorResponse {A} status detail.

Definition serve {A} (o : outcome A) : http_response A :=
  match o with
  | Returns a => Response 200 a
  | Raises (HTTPException c d) => ErrorResponse c d
  | Raises (Exception _) => ErrorResponse 500 "Internal Server Error"
  end.

(** ** The pydantic models of [main.py] *)

Module SearchQuery.
Record t := mk {
  type : string;
  origin : option string;
  destination : option string;
  date : option string;
  city : option string;
  checkin : option string;
  checkout : option string
}.
End SearchQuery.

Module FlightOption.
Record t := mk {
  airline : string;
  flight_number : string;
  depart_time : string;
  arrive_time : string;
  duration : string;
  price : float;
  origin : string;
  destination : string
}.
End FlightOption.

Module HotelOption.
Record t := mk {
  name : string;
  location : string;
  rating : float;
  price_per_night : float;
  image : option string
}.
End HotelOption.

Module TrainOption.
Record t := mk {
  train_name : string;
  train_number : string;
  depart_time : string;
  arrive_time : string;
  duration : string;
  price : float;
  origin : string;
  destination : string
}.
End TrainOption.

(** What a caller hands to [create_document]: a model instance or a dict. *)
Inductive payload :=
  | PModel (q : SearchQuery.t)
  | PDict (d : doc).

(** ** The parts of the Python runtime left open

    [str.upper] and [str.title] follow the Unicode case tables, and the text
    of the [TypeError] that [list.sort] raises names the first pair it could
    not compare.  The handlers are written against this interface; [ascii_py]
    below is the instance for text whose cased letters are ASCII. *)
Class PyRuntime := {
  upper : string -> string;
  title : string -> string;
  sort_type_error : list value -> string
}.

Definition is_lower (c : ascii) : bool :=
  let n := N_of_ascii c in (97 <=? n)%N && (n <=? 122)%N.

Definition is_upper (c : ascii) : bool :=
  let n := N_of_ascii c in (65 <=? n)%N && (n <=? 90)%N.

Definition to_upper (c : ascii) : ascii :=
  if is_lower c then ascii_of_N (N_of_ascii c - 32) else c.

Definition to_lower (c : ascii) : ascii :=
  if is_upper c then ascii_of_N (N_of_ascii c + 32) else c.

Fixpoint ascii_upper (s : string) : string :=
  match s with
  | EmptyString => EmptyString
  | String c s' => String (to_upper c) (ascii_upper s')
  end.

(** [str.title]: a cased letter is upper-cased when the character before it
    is not cased, and lower-cased otherwise. *)
Fixpoint ascii_title_from (previous_is_cased : bool) (s : string) : string :=
  match s with
  | EmptyString => EmptyString
  | String c s' =>
      if is_lower c || is_upper c then
        String (if previous_is_cased then to_lower c else to_upper c)
               (ascii_title_from true s')
      else String c (ascii_title_from false s')
  end.

Definition ascii_title (s : string) : string := ascii_title_from false s.

Definition ascii_py : PyRuntime := {|
  upper := ascii_upper;
  title := ascii_title;
  sort_type_error := fun _ => "'<' not supported between instances"
|}.

(** ** Sorting as [list.sort(key=..., reverse=True)] does *)

Definition datetime_fields (d : datetime) : list N :=
  [year d; month d; day d; hour d; minute d; second d; microsecond d].

Fixpoint lex_ltb (l1 l2 : list N) : bool :=
  match l1, l2 with
  | [], [] => false
  | [], _ :: _ => true
  | _ :: _, [] => false
  | x :: l1', y :: l2' =>
      if (x <? y)%N then true
      else if (y <? x)%N then false
      else lex_ltb l1' l2'
  end.

(** [a < b] on sort keys; [None] is the [TypeError] of an unsupported pair.
    [str] compares by code point, which on UTF-8 is the byte order. *)
Definition py_lt (a b : value) : option bool :=
  match a, b with
  | VStr s, VStr t => Some (String.ltb s t)
  | VObjectId s, VObjectId t => Some (String.ltb s t)
  | VDatetime d, VDatetime e => Some (lex_ltb (datetime_fields d) (datetime_fields e))
  | _, _ => None
  end.

(** [a >= b] *)
Definition py_ge (a b : value) : option bool :=
  match a, b with
  | VStr s, VStr t => Some (String.leb t s)
  | VObjectId s, VObjectId t => Some (String.leb t s)
  | VDatetime d, VDatetime e => Some (negb (lex_ltb (datetime_fields d) (datetime_fields e)))
  | _, _ => None
  end.

Definition supported (a b : value) : bool :=
  match py_lt a b with
  | Some _ => true
  | None => false
  end.

(** Every pair of keys can be compared.  A comparison sort of two or more
    elements cannot finish without comparing across any split of its input,
    so [list.sort] raises exactly when this fails. *)
Definition comparable (ks : list value) : bool :=
  forallb (fun a => forallb (supported a) ks) ks.

Section Sort.
Context {A : Type} (key : A -> value).

Definition key_lt (x y : A) : bool :=
  match py_lt (key x) (key y) with
  | Some b => b
  | None => false
  end.

(** [key x >= key y] holds in Python. *)
Definition key_ge (x y : A) : Prop := py_ge (key x) (key y) = Some true.

(** [x] goes in front of the first element whose key is not greater:
    elements with equal keys keep the order they came in. *)
Fixpoint insert_desc (x : A) (l : list A) : list A :=
  match l with
  | [] => [x]
  | y :: l' => if key_lt x y then y :: insert_desc x l' else x :: l
  end.

Definition sorted_desc (l : list A) : list A := foldr insert_desc [] l.

Definition list_sort_reverse `{PyRuntime} (l : list A) : outcome (list A) :=
  match l with
  | [] | [_] => Returns l
  | _ =>
      if comparable (key <$> l) then Returns (sorted_desc l)
      else Raises (Exception (sort_type_error (key <$> l)))
  end.
End Sort.

(** ** The route functions *)

(** The handle [db] that [database] exports, as [/test] uses it: the [name]
    attribute and the [list_collection_names] call. *)
Inductive attribute (A : Type) :=
  | NoAttr
  | Attr (a : A)
  | AttrRaises (e : exn).
Arguments NoAttr {A}.
Arguments Attr {A} a.
Arguments AttrRaises {A} e.

Module Database.
Record t := mk {
  name : attribute string;
  list_collection_names : outcome (list string)
}.
End Database.

(** The dict that [test_database] builds; its keys are fixed. *)
Module TestResponse.
Record t := mk {
  backend : string;
  database : string;
  database_url : option string;
  database_name : option string;
  connection_status : string;
  collections : list string
}.

Definition set_database (v : string) (r : t) : t :=
  mk (backend r) v (database_url r) (database_name r) (connection_status r) (collections r).
Definition set_database_url (v : option string) (r : t) : t :=
  mk (backend r) (database r) v (database_name r) (connection_status r) (collections r).
Definition set_database_name (v : option string) (r : t) : t :=
  mk (backend r) (database r) (database_url r) v (connection_status r) (collections r).
Definition set_connection_status (v : string) (r : t) : t :=
  mk (backend r) (database r) (database_url r) (database_name r) v (collections r).
Definition set_collections (v : list string) (r : t) : t :=
  mk (backend r) (database r) (database_url r) (database_name r) (connection_status r) v.
End TestResponse.

(** [os.getenv(k)] on the environment [env]. *)
Definition getenv (env : gmap string string) (k : string) : option string := env !! k.

(** Truth value of [os.getenv(k)]: set, and not to the empty string. *)
Definition truthy (o : option string) : bool :=
  match o with
  | Some s => negb (String.eqb s "")
  | None => false
  end.

(** [db.name if hasattr(db, "name") else "✅ Connected"] *)
Definition name_or_connected (h : Database.t) : outcome string :=
  match Database.name h with
  | NoAttr => Returns "✅ Connected"
  | Attr n => Returns n
  | AttrRaises e => Raises e
  end.

Definition test_database (env : gmap string string) (db : option Database.t)
  : outcome TestResponse.t :=
  let response :=
    TestResponse.mk "✅ Running" "❌ Not Available" None None "Not Connected" [] in
  let body : M TestResponse.t unit :=
    try_except
      (match db with
       | Some db =>
           assign (TestResponse.set_database "✅ Available") >>
           assign (TestResponse.set_database_url (Some "✅ Configured")) >>
           let* n := lift (name_or_connected db) in
           assign (TestResponse.set_database_name (Some n)) >>
           assign (TestResponse.set_connection_status "Connected") >>
           try_except
             (let* collections := lift (Database.list_collection_names db) in
              assign (TestResponse.set_collections (take 10 collections)) >>
              assign (TestResponse.set_database "✅ Connected & Working"))
             (fun e =>
                assign (TestResponse.set_database
                          ("⚠️ Connected but Error: " ++ str_prefix 50 (str_exn e))))
       | None =>
           assign (TestResponse.set_database "⚠️ Available but not initialized")
       end)
      (fun e =>
         assign (TestResponse.set_database ("❌ Error: " ++ str_prefix 50 (str_exn e)))) >>
    assign (TestResponse.set_database_url
              (Some (if truthy (getenv env "DATABASE_URL") then "✅ Set" else "❌ Not Set"))) >>
    assign (TestResponse.set_database_name
              (Some (if truthy (getenv env "DATABASE_NAME") then "✅ Set" else "❌ Not Set")))
  in
  match body response with
  | (Returns _, response) => Returns response
  | (Raises e, _) => Raises e
  end.

(** The body of [GET /api/searches]. *)
Module Searches.
Record t := mk { items : list doc }.
End Searches.

Definition base_price : float := 79.0.

Section Handlers.
Context `{PyRuntime} {Store : Type}.
Variable create_document : string -> payload -> M Store string.
Variable get_documents : string -> doc -> Z -> M Store (list doc).

Definition create_search (search : SearchQuery.t) : M Store doc :=
  try_except
    (let* doc_id := create_document "search" (PModel search) in
     ret {[ "status" := VStr "ok"; "id" := VStr doc_id ]})
    (fun e => raise (HTTPException 500 (str_exn e))).

(** The body of the loop over [docs].  Of the values a document holds only
    a [datetime] has an [isoformat] attribute. *)
Definition convert (d : doc) : doc :=
  let d :=
    match d !! "_id" with
    | Some v => <["_id" := VStr (py_str v)]> d
    | None => d
    end in
  match d !! "created_at" with
  | Some (VDatetime t) => <["created_at" := VStr (isoformat t)]> d
  | _ => d
  end.

(** [lambda x: x.get("created_at", "")] *)
Definition created_at (x : doc) : value := default (VStr "") (x !! "created_at").

Definition list_recent_searches (limit : Z) : M Store Searches.t :=
  try_except
    (let* docs := get_documents "search" ∅ limit in
     let docs := convert <$> docs in
     let* docs := lift (list_sort_reverse created_at docs) in
     ret (Searches.mk docs))
    (fun e => raise (HTTPException 500 (str_exn e))).

(** [limit: int = Query(10, ge=1, le=50)]: FastAPI answers 422 before the
    function runs when the parameter is out of range. *)
Definition get_searches (limit : option Z) : M Store (http_response Searches.t) :=
  let limit := default 10%Z limit in
  if bool_decide (1 <= limit <= 50)%Z then
    fun s => let '(o, s') := list_recent_searches limit s in (Returns (serve o), s')
  else ret (ErrorResponse 422 "limit").

Definition flights (origin destination date : string) : list FlightOption.t :=
  [ FlightOption.mk "SkyJet" "SJ201" (date ++ "T06:30") (date ++ "T09:05") "2h 35m"
      (base_price + 20) (upper origin) (upper destination);
    FlightOption.mk "AeroWings" "AW318" (date ++ "T10:15") (date ++ "T12:55") "2h 40m"
      (base_price + 35) (upper origin) (upper destination);
    FlightOption.mk "CloudAir" "CA722" (date ++ "T19:45") (date ++ "T22:25") "2h 40m"
      (base_price + 10) (upper origin) (upper destination) ].

Definition search_flights (origin destination date : string)
  : M Store (list FlightOption.t) :=
  let flights := flights origin destination date in
  try_except
    (create_document "search"
       (PDict {[ "type" := VStr "flights"; "origin" := VStr origin;
                 "destination" := VStr destination; "date" := VStr date ]}) >>
     ret tt)
    (fun _ => ret tt) >>
  ret flights.

Definition hotels (city : string) : list HotelOption.t :=
  [ HotelOption.mk "Grand Central Hotel" (title city) 4.5 129.0
      (Some "https://images.unsplash.com/photo-1542314831-068cd1dbfeeb?q=80&w=1200&auto=format&fit=crop");
    HotelOption.mk "Urban Stay Boutique" (title city) 4.2 99.0
      (Some "https://images.unsplash.com/photo-1496412705862-e0088f16f791?q=80&w=1200&auto=format&fit=crop");
    HotelOption.mk "Skyline Suites" (title city) 4.8 189.0
      (Some "https://images.unsplash.com/photo-1502920917128-1aa500764cbd?q=80&w=1200&auto=format&fit=crop") ].

Definition search_hotels (city checkin checkout : string)
  : M Store (list HotelOption.t) :=
  let hotels := hotels city in
  try_except
    (create_document "search"
       (PDict {[ "type" := VStr "hotels"; "city" := VStr city;
                 "checkin" := VStr checkin; "checkout" := VStr checkout ]}) >>
     ret tt)
    (fun _ => ret tt) >>
  ret hotels.

Definition trains (origin destination date : string) : list TrainOption.t :=
  [ TrainOption.mk "Express Line" "EX123" (date ++ "T07:10") (date ++ "T13:30") "6h 20m"
      24.0 (upper origin) (upper destination);
    TrainOption.mk "Rapid Rider" "RR452" (date ++ "T15:00") (date ++ "T21:10") "6h 10m"
      27.5 (upper origin) (upper destination) ].

Definition search_trains (origin destination date : string)
  : M Store (list TrainOption.t) :=
  let trains := trains origin destination date in
  try_except
    (create_document "search"
       (PDict {[ "type" := VStr "trains"; "origin" := VStr origin;
                 "destination" := VStr destination; "date" := VStr date ]}) >>
     ret tt)
    (fun _ => ret tt) >>
  ret trains.
End Handlers.

(** ** The document store *)

Module SpecDatabase.
(** Modelled from the spec: the connector of the [database] module, which
    is not in the sources.  Section 4.1: a live handle onto named
    collections, or the unavailable state. *)
Definition Store : Type := option (gmap string (list doc)).

(** Modelled from the spec: a record matches a filter when it carries
    every field of the filter with the same value; the empty filter
    matches every record (section 4.3). *)
Definition matches (flt d : doc) : bool :=
  bool_decide (map_Forall (fun k v => d !! k = Some v) flt).

(** Modelled from the spec: [get_documents] of the [database] module, which
    is not in the sources.  Section 4.3: it returns at most [limit] of the
    records of the collection that match the filter, and fails with
    StorageUnavailable when the connector has no live handle. *)
Definition get_documents (collection : string) (flt : doc) (limit : Z)
  : M Store (list doc) :=
  fun st =>
    match st with
    | None => (Raises (Exception "StorageUnavailable"), st)
    | Some colls =>
        (Returns (take (Z.to_nat limit)
                    (filter (fun d => matches flt d = true)
                            (default [] (colls !! collection)))), st)
    end.
End SpecDatabase.

(** An in-memory stand-in for [create_document] that keeps the calls it
    received and answers as [answer] says. *)
Module Recorder.
Definition Store : Type := list (string * payload).

Definition create_document (answer : string -> payload -> outcome string)
    (collection : string) (data : payload) : M Store string :=
  fun log => (answer collection data, (log ++ [(collection, data)])%list).
End Recorder.

(** ** Sample data for running the handlers *)

Module Sample.
Definition may_1 : datetime := mk_datetime 2024 5 1 9 3 0 0.
Definition may_2 : datetime := mk_datetime 2024 5 2 18 30 7 250000.

Definition flight_search : doc :=
  {[ "_id" := VObjectId "665f1c2e9b1e8a0012ab34c1"; "type" := VStr "flights";
     "origin" := VStr "lax"; "destination" := VStr "jfk";
     "date" := VStr "2024-05-01"; "created_at" := VDatetime may_1 ]}.

Definition foreign_record : doc :=
  {[ "_id" := VObjectId "665f1c2e9b1e8a0012ab34c2"; "type" := VStr "hotels" ]}.

Definition hotel_search : doc :=
  {[ "_id" := VObjectId "665f1c2e9b1e8a0012ab34c3"; "type" := VStr "hotels";
     "city" := VStr "paris"; "created_at" := VDatetime may_2 ]}.

Definition train_search : doc :=
  {[ "_id" := VObjectId "665f1c2e9b1e8a0012ab34c4"; "type" := VStr "trains";
     "created_at" := VDatetime may_1 ]}.

Definition docs : list doc :=
  [flight_search; foreign_record; hotel_search; train_search].

Definition store : SpecDatabase.Store := Some {[ "search" := docs ]}.

(** A [create_document] whose insert always fails. *)
Definition failing : string -> payload -> M Recorder.Store string :=
  Recorder.create_document (fun _ _ => Raises (Exception "insert failed")).

(** A [create_document] that always hands out the same id. *)
Definition working : string -> payload -> M Recorder.Store string :=
  Recorder.create_document (fun _ _ => Returns "665f1c2e9b1e8a0012ab34c5").

Definition boat_search : SearchQuery.t :=
  SearchQuery.mk "boats" (Some "Dover") (Some "Calais") None None None None.
End Sample.

(** Records that this service did not write. *)
Module Foreign.
Definition null_dated : doc :=
  {[ "_id" := VObjectId "665f1c2e9b1e8a0012ab34d1"; "created_at" := VNone ]}.

Definition store : SpecDatabase.Store :=
  Some {[ "search" := [null_dated; Sample.flight_search] ]}.


Definition working : Database.t :=
  Database.mk (Attr "travel") (Returns ["search"]).
End Foreign.

(** ** Measures used in the statements *)


(** The field ranges that the [datetime] constructor enforces. *)
Definition valid_datetime (d : datetime) : Prop :=
  (1 <= year d <= 9999)%N /\ (1 <= month d <= 12)%N /\ (1 <= day d <= 31)%N
  /\ (hour d < 24)%N /\ (minute d < 60)%N /\ (second d < 60)%N
  /\ (microsecond d < 1000000)%N.

(** [d < e] on two [datetime] values. *)
Definition datetime_ltb (d e : datetime) : bool :=
  lex_ltb (datetime_fields d) (datetime_fields e).

(** The [w] low decimal digits of [n], most significant first. *)
Fixpoint digits (w : nat) (n : N) : string :=
  match w with
  | O => ""
  | S w' => digits w' (n `div` 10) ++ String (pretty_N_char (n `mod` 10)) ""
  end.

(** * Properties *)

(** ** The order on sort keys *)

Lemma string_ltb_leb (s t : string) : String.ltb s t = true -> String.leb s t = true.
Proof.
  unfold String.ltb, String.leb. by destruct (String.compare s t).
Qed.

Lemma string_nltb_leb (s t : string) : String.ltb s t = false -> String.leb t s = true.
Proof.
  unfold String.ltb, String.leb. rewrite (String.compare_antisym t s).
  by destruct (String.compare s t).
Qed.

Lemma string_leb_trans (s t u : string) :
  String.leb s t = true -> String.leb t u = true -> String.leb s u = true.
Proof.
  intros Hst Htu. apply Is_true_true.
  apply (PreOrder_Transitive (R := String.le) s t u); by apply Is_true_true.
Qed.

Lemma string_leb_empty (t : string) : String.leb t "" = true -> t = "".
Proof. by destruct t. Qed.

Lemma lex_ltb_asym (a b : list N) : lex_ltb a b = true -> lex_ltb b a = false.
Proof.
  revert b. induction a as [|x a IH]; intros [|y b]; simpl; try done.
  destruct (N.ltb_spec x y), (N.ltb_spec y x); try done; try lia.
  apply IH.
Qed.

Lemma lex_ltb_ge_trans (a b c : list N) :
  lex_ltb a b = false -> lex_ltb b c = false -> lex_ltb a c = false.
Proof.
  revert b c. induction a as [|x a IH]; intros [|y b] [|z c]; simpl; try done.
  destruct (N.ltb_spec x y), (N.ltb_spec y x), (N.ltb_spec y z), (N.ltb_spec z y),
    (N.ltb_spec x z), (N.ltb_spec z x); try done; try lia.
  apply IH.
Qed.

Lemma py_lt_ge (a b : value) : py_lt a b = Some true -> py_ge b a = Some true.
Proof.
  destruct a, b; cbn [py_lt py_ge]; try done; intros Hlt%(inj Some); f_equal.
  - by apply string_ltb_leb.
  - by rewrite (lex_ltb_asym _ _ Hlt).
  - by apply string_ltb_leb.
Qed.

Lemma py_nlt_ge (a b : value) : py_lt a b = Some false -> py_ge a b = Some true.
Proof.
  destruct a, b; cbn [py_lt py_ge]; try done; intros Hlt%(inj Some); f_equal.
  - by apply string_nltb_leb.
  - by rewrite Hlt.
  - by apply string_nltb_leb.
Qed.

Lemma py_ge_trans (a b c : value) :
  py_ge a b = Some true -> py_ge b c = Some true -> py_ge a c = Some true.
Proof.
  destruct a, b, c; cbn [py_lt py_ge]; try done; intros Hab%(inj Some) Hbc%(inj Some); f_equal.
  - by apply (string_leb_trans _ s0).
  - apply negb_true_iff in Hab, Hbc. apply negb_true_iff.
    by apply (lex_ltb_ge_trans _ (datetime_fields d0)).
  - by apply (string_leb_trans _ hex0).
Qed.

Lemma py_ge_empty (b : value) : py_ge (VStr "") b = Some true -> b = VStr "".
Proof.
  destruct b; cbn [py_ge]; try done. intros Hle%(inj Some). f_equal. by apply string_leb_empty.
Qed.

Lemma comparable_supported (ks : list value) (a b : value) :
  comparable ks = true -> a ∈ ks -> b ∈ ks -> supported a b = true.
Proof.
  unfold comparable. rewrite forallb_forall. intros Hall Ha Hb.
  apply list_elem_of_In in Ha, Hb.
  specialize (Hall a Ha). rewrite forallb_forall in Hall. by apply Hall.
Qed.

(** ** The descending stable sort *)

Lemma py_lt_irrefl (a : value) : py_lt a a <> Some true.
Proof.
  intros Hlt. pose proof (py_lt_ge _ _ Hlt) as Hge.
  destruct a; cbn [py_lt py_ge] in *; try done;
    apply (inj Some) in Hlt; apply (inj Some) in Hge.
  - unfold String.ltb, String.leb in *.
    rewrite (String.compare_antisym s s) in Hlt. by destruct (String.compare s s).
  - by rewrite (lex_ltb_asym _ _ Hlt) in Hlt.
  - unfold String.ltb, String.leb in *.
    rewrite (String.compare_antisym hex hex) in Hlt. by destruct (String.compare hex hex).
Qed.

Section SortFacts.
Context {A : Type} (key : A -> value).

Lemma insert_desc_perm (x : A) (l : list A) : insert_desc key x l ≡ₚ x :: l.
Proof.
  induction l as [|y l IH]; simpl; [done|].
  destruct (key_lt key x y); [|done].
  rewrite IH. apply Permutation_swap.
Qed.

Lemma sorted_desc_perm (l : list A) : sorted_desc key l ≡ₚ l.
Proof.
  induction l as [|x l IH]; simpl; [done|].
  unfold sorted_desc in IH. by rewrite insert_desc_perm, IH.
Qed.

Lemma insert_desc_sorted (x : A) (l : list A) :
  StronglySorted (key_ge key) l ->
  Forall (fun y => supported (key x) (key y) = true) l ->
  StronglySorted (key_ge key) (insert_desc key x l).
Proof.
  induction l as [|y l IH]; intros Hs Hsup; simpl.
  { repeat constructor. }
  apply StronglySorted_inv in Hs as [Hs Hy].
  apply Forall_cons in Hsup as [Hxy Hsup].
  unfold key_lt. unfold supported in Hxy.
  destruct (py_lt (key x) (key y)) as [[|]|] eqn:Hlt; [| |done].
  - constructor; [by apply IH|].
    rewrite insert_desc_perm. constructor; [|done].
    by apply py_lt_ge.
  - assert (key_ge key x y) as Hge by by apply py_nlt_ge.
    constructor; [by constructor|].
    constructor; [done|].
    eapply Forall_impl; [exact Hy|].
    intros z Hz. by apply (py_ge_trans _ (key y)).
Qed.

Lemma sorted_desc_sorted (l : list A) :
  (forall a b, a ∈ l -> b ∈ l -> supported (key a) (key b) = true) ->
  StronglySorted (key_ge key) (sorted_desc key l).
Proof.
  induction l as [|x l IH]; intros Hsup; simpl; [constructor|].
  apply insert_desc_sorted.
  - apply IH. intros a b Ha Hb. apply Hsup; by right.
  - apply Forall_forall. intros y Hy.
    apply Hsup; [by left|]. right.
    by rewrite <- (sorted_desc_perm l).
Qed.

(** Stability: the records that share a key come out in the order they
    went in. *)
Lemma insert_desc_stable (k : value) (x : A) (l : list A) :
  filter (fun y => key y = k) (insert_desc key x l)
  = filter (fun y => key y = k) (x :: l).
Proof.
  induction l as [|y l IH]; simpl; [done|].
  unfold key_lt. destruct (py_lt (key x) (key y)) as [[|]|] eqn:Hlt; [|done..].
  rewrite !filter_cons in *. rewrite IH.
  destruct (decide (key y = k)) as [Hy|Hy], (decide (key x = k)) as [Hx|Hx]; try done.
  exfalso. rewrite Hx, Hy in Hlt. by apply (py_lt_irrefl k).
Qed.

Lemma sorted_desc_stable (k : value) (l : list A) :
  filter (fun y => key y = k) (sorted_desc key l) = filter (fun y => key y = k) l.
Proof.
  induction l as [|x l IH]; simpl; [done|].
  rewrite insert_desc_stable, !filter_cons. unfold sorted_desc in *. by rewrite IH.
Qed.

Context `{PyRuntime}.

Lemma list_sort_reverse_sorted (l l' : list A) :
  list_sort_reverse key l = Returns l' -> StronglySorted (key_ge key) l'.
Proof.
  unfold list_sort_reverse. destruct l as [|x [|y l]].
  - intros [= <-]. constructor.
  - intros [= <-]. repeat constructor.
  - destruct (comparable _) eqn:Hc; [|done]. intros [= <-].
    apply (sorted_desc_sorted (x :: y :: l)). intros a b Ha Hb.
    apply (comparable_supported _ _ _ Hc); by apply list_elem_of_fmap_2.
Qed.

Lemma list_sort_reverse_perm (l l' : list A) :
  list_sort_reverse key l = Returns l' -> l' ≡ₚ l.
Proof.
  unfold list_sort_reverse. destruct l as [|x [|y l]]; try by intros [= <-].
  destruct (comparable _); [|done]. intros [= <-]. apply (sorted_desc_perm (x :: y :: l)).
Qed.

Lemma list_sort_reverse_stable (k : value) (l l' : list A) :
  list_sort_reverse key l = Returns l' ->
  filter (fun y => key y = k) l' = filter (fun y => key y = k) l.
Proof.
  unfold list_sort_reverse. destruct l as [|x [|y l]]; try by intros [= <-].
  destruct (comparable _); [|done]. intros [= <-]. apply (sorted_desc_stable k (x :: y :: l)).
Qed.

Lemma list_sort_reverse_returns (l : list A) :
  Forall (fun x => exists s, key x = VStr s) l ->
  list_sort_reverse key l = Returns (sorted_desc key l).
Proof.
  intros Hstr. unfold list_sort_reverse. destruct l as [|x [|y l]]; [done..|].
  assert (comparable (key <$> x :: y :: l) = true) as ->; [|done].
  unfold comparable. rewrite forallb_forall. intros a Ha.
  rewrite forallb_forall. intros b Hb.
  apply list_elem_of_In, list_elem_of_fmap in Ha as (xa & -> & Hxa).
  apply list_elem_of_In, list_elem_of_fmap in Hb as (xb & -> & Hxb).
  rewrite Forall_forall in Hstr.
  destruct (Hstr _ Hxa) as [sa ->], (Hstr _ Hxb) as [sb ->]. done.
Qed.
End SortFacts.

(** ** The route functions over an arbitrary [database] module *)

Section HandlerFacts.
Context `{PyRuntime} {Store : Type}.
Variable create_document : string -> payload -> M Store string.
Variable get_documents : string -> doc -> Z -> M Store (list doc).

Lemma create_search_eq (search : SearchQuery.t) (st : Store) :
  create_search create_document search st =
    match create_document "search" (PModel search) st with
    | (Returns doc_id, st') =>
        (Returns {[ "status" := VStr "ok"; "id" := VStr doc_id ]}, st')
    | (Raises e, st') => (Raises (HTTPException 500 (str_exn e)), st')
    end.
Proof.
  unfold create_search, try_except, bind, ret, raise.
  by destruct (create_document _ _ _) as [[doc_id|e] st'].
Qed.

Lemma list_recent_searches_eq (limit : Z) (st : Store) :
  list_recent_searches get_documents limit st =
    match get_documents "search" ∅ limit st with
    | (Returns docs, st') =>
        match list_sort_reverse created_at (convert <$> docs) with
        | Returns items => (Returns (Searches.mk items), st')
        | Raises e => (Raises (HTTPException 500 (str_exn e)), st')
        end
    | (Raises e, st') => (Raises (HTTPException 500 (str_exn e)), st')
    end.
Proof.
  unfold list_recent_searches, try_except, bind, ret, raise, lift.
  destruct (get_documents _ _ _ _) as [[docs|e] st']; [|done].
  by destruct (list_sort_reverse _ _).
Qed.

Lemma search_flights_eq (origin destination date : string) (st : Store) :
  search_flights create_document origin destination date st =
    (Returns (flights origin destination date),
     (create_document "search"
        (PDict {[ "type" := VStr "flights"; "origin" := VStr origin;
                  "destination" := VStr destination; "date" := VStr date ]}) st).2).
Proof.
  unfold search_flights, try_except, bind, ret.
  by destruct (create_document _ _ _) as [[doc_id|e] st'].
Qed.

Lemma search_hotels_eq (city checkin checkout : string) (st : Store) :
  search_hotels create_document city checkin checkout st =
    (Returns (hotels city),
     (create_document "search"
        (PDict {[ "type" := VStr "hotels"; "city" := VStr city;
                  "checkin" := VStr checkin; "checkout" := VStr checkout ]}) st).2).
Proof.
  unfold search_hotels, try_except, bind, ret.
  by destruct (create_document _ _ _) as [[doc_id|e] st'].
Qed.

Lemma search_trains_eq (origin destination date : string) (st : Store) :
  search_trains create_document origin destination date st =
    (Returns (trains origin destination date),
     (create_document "search"
        (PDict {[ "type" := VStr "trains"; "origin" := VStr origin;
                  "destination" := VStr destination; "date" := VStr date ]}) st).2).
Proof.
  unfold search_trains, try_except, bind, ret.
  by destruct (create_document _ _ _) as [[doc_id|e] st'].
Qed.

(** C1: whatever the origin, destination and date, and whatever the store
    does, GET /api/search/flights answers 200 with exactly three entries;
    their prices are 79.0 plus 20, 35 and 10, that is 99.0, 114.0 and 89.0
    in this order, and each carries the upper-cased origin and
    destination. *)
Theorem search_flights_three_entries (origin destination date : string) (st : Store) :
  exists f1 f2 f3 : FlightOption.t,
    serve (search_flights create_document origin destination date st).1
      = Response 200 [f1; f2; f3]
    /\ FlightOption.price f1 = (79.0 + 20)%float
    /\ FlightOption.price f2 = (79.0 + 35)%float
    /\ FlightOption.price f3 = (79.0 + 10)%float
    /\ FlightOption.price <$> [f1; f2; f3] = [99.0; 114.0; 89.0]%float
    /\ Forall (fun f => FlightOption.origin f = upper origin
                        /\ FlightOption.destination f = upper destination)
              [f1; f2; f3].
Proof.
  rewrite search_flights_eq. unfold flights. simpl.
  do 3 eexists. split; [reflexivity|].
  repeat split; repeat constructor.
Qed.

(** C6: whatever the city, check-in and check-out, GET /api/search/hotels
    answers 200 with exactly three entries, each located at the title-cased
    city. *)
Theorem search_hotels_three_entries (city checkin checkout : string) (st : Store) :
  exists h1 h2 h3 : HotelOption.t,
    serve (search_hotels create_document city checkin checkout st).1
      = Response 200 [h1; h2; h3]
    /\ Forall (fun h => HotelOption.location h = title city) [h1; h2; h3].
Proof.
  rewrite search_hotels_eq. unfold hotels. simpl.
  do 3 eexists. split; [reflexivity|]. repeat constructor.
Qed.

(** C3: for every input and every behaviour of [create_document], raising
    included, each mock search answers 200 with its full fixed list: three
    flights, three hotels, two trains.  The lists do not mention the
    store. *)
Theorem mock_searches_ignore_persistence
    (origin destination date city checkin checkout : string) (st : Store) :
  serve (search_flights create_document origin destination date st).1
    = Response 200 (flights origin destination date)
  /\ length (flights origin destination date) = 3
  /\ serve (search_hotels create_document city checkin checkout st).1
    = Response 200 (hotels city)
  /\ length (hotels city) = 3
  /\ serve (search_trains create_document origin destination date st).1
    = Response 200 (trains origin destination date)
  /\ length (trains origin destination date) = 2.
Proof.
  rewrite search_flights_eq, search_hotels_eq, search_trains_eq. done.
Qed.

(** C4: POST /api/search returns status ok with the new id when
    [create_document] returns, and raises HTTP 500 carrying [str(e)]
    exactly when it raises [e]; GET /api/searches turns a failure of
    [get_documents] into the same HTTP 500. *)
Theorem storage_failures_surface (search : SearchQuery.t) (limit : Z) (st : Store) :
  match create_document "search" (PModel search) st with
  | (Returns doc_id, st') =>
      create_search create_document search st
        = (Returns {[ "status" := VStr "ok"; "id" := VStr doc_id ]}, st')
      /\ serve (create_search create_document search st).1
        = Response 200 {[ "status" := VStr "ok"; "id" := VStr doc_id ]}
  | (Raises e, st') =>
      create_search create_document search st
        = (Raises (HTTPException 500 (str_exn e)), st')
      /\ serve (create_search create_document search st).1
        = ErrorResponse 500 (str_exn e)
  end
  /\ match get_documents "search" ∅ limit st with
     | (Returns _, _) => True
     | (Raises e, st') =>
         list_recent_searches get_documents limit st
           = (Raises (HTTPException 500 (str_exn e)), st')
         /\ serve (list_recent_searches get_documents limit st).1
           = ErrorResponse 500 (str_exn e)
     end.
Proof.
  rewrite create_search_eq, list_recent_searches_eq.
  destruct (create_document _ _ _) as [[doc_id|e] st'];
    destruct (get_documents _ _ _ _) as [[docs|e'] st'']; done.
Qed.

(** C9: POST /api/search does not check [type] against flights, hotels and
    trains.  For every string [type] and every choice of the optional
    fields the model reaches [create_document] as it is (a recording store
    logs exactly that call), the store is left as that call leaves it, and
    the request fails exactly when that call raises. *)
Theorem create_search_any_type
    (type : string) (origin destination date city checkin checkout : option string)
    (st : Store) :
  let search :=
    SearchQuery.mk type origin destination date city checkin checkout in
  let call := create_document "search" (PModel search) st in
  (create_search create_document search st).2 = call.2
  /\ ((exists e, (create_search create_document search st).1 = Raises e)
      <-> (exists e, call.1 = Raises e))
  /\ ((exists body, serve (create_search create_document search st).1 = Response 200 body)
      <-> (exists doc_id, call.1 = Returns doc_id))
  /\ (forall answer log,
        (create_search (Recorder.create_document answer) search log).2
        = (log ++ [("search", PModel search)])%list).
Proof.
  intros search call. split; [|split; [|split]].
  - rewrite create_search_eq. subst call.
    by destruct (create_document _ _ _) as [[doc_id|e] st'].
  - rewrite create_search_eq. subst call.
    destruct (create_document _ _ _) as [[doc_id|e] st']; simpl;
      split; intros [x Hx]; try done; eauto.
  - rewrite create_search_eq. subst call.
    destruct (create_document _ _ _) as [[doc_id|e] st']; simpl;
      split; intros [x Hx]; try done; eauto.
  - intros answer log.
    unfold create_search, try_except, bind, ret, raise, Recorder.create_document.
    by destruct (answer _ _).
Qed.

(** C10: the flight and train searches hand [create_document] the origin,
    destination and date as the client sent them (a recording store logs
    exactly that dict), while every returned
    entry carries the upper-cased origin and destination: where an input
    is not already upper-case, what is stored differs from what is
    returned. *)
Theorem search_log_keeps_client_casing (origin destination date : string) (st : Store) :
  let sent (type : string) : doc :=
    {[ "type" := VStr type; "origin" := VStr origin;
       "destination" := VStr destination; "date" := VStr date ]} in
  (search_flights create_document origin destination date st).2
    = (create_document "search" (PDict (sent "flights")) st).2
  /\ (search_trains create_document origin destination date st).2
    = (create_document "search" (PDict (sent "trains")) st).2
  /\ (forall answer log,
        (search_flights (Recorder.create_document answer) origin destination date log).2
          = (log ++ [("search", PDict (sent "flights"))])%list
        /\ (search_trains (Recorder.create_document answer) origin destination date log).2
          = (log ++ [("search", PDict (sent "trains"))])%list)
  /\ (forall type, sent type !! "origin" = Some (VStr origin)
                   /\ sent type !! "destination" = Some (VStr destination)
                   /\ sent type !! "date" = Some (VStr date))
  /\ exists fs ts,
      (search_flights create_document origin destination date st).1 = Returns fs
      /\ (search_trains create_document origin destination date st).1 = Returns ts
      /\ Forall (fun f => FlightOption.origin f = upper origin
                          /\ FlightOption.destination f = upper destination) fs
      /\ Forall (fun t => TrainOption.origin t = upper origin
                          /\ TrainOption.destination t = upper destination) ts
      /\ (origin <> upper origin ->
          Forall (fun f => Some (VStr (FlightOption.origin f)) <> sent "flights" !! "origin") fs
          /\ Forall (fun t => Some (VStr (TrainOption.origin t)) <> sent "trains" !! "origin") ts)
      /\ (destination <> upper destination ->
          Forall (fun f => Some (VStr (FlightOption.destination f))
                           <> sent "flights" !! "destination") fs
          /\ Forall (fun t => Some (VStr (TrainOption.destination t))
                              <> sent "trains" !! "destination") ts).
Proof.
  intros sent. rewrite search_flights_eq, search_trains_eq.
  assert (forall type, sent type !! "origin" = Some (VStr origin)
                       /\ sent type !! "destination" = Some (VStr destination)
                       /\ sent type !! "date" = Some (VStr date)) as Hsent.
  { intros type. subst sent. cbv beta. by simplify_map_eq. }
  split; [done|]. split; [done|].
  split.
  { intros answer log.
    unfold search_flights, search_trains, try_except, bind, ret,
      Recorder.create_document.
    by destruct (answer _ _), (answer _ _). }
  split; [exact Hsent|].
  exists (flights origin destination date), (trains origin destination date).
  split; [done|]. split; [done|].
  split; [repeat constructor|]. split; [repeat constructor|].
  split.
  - intros Hne. destruct (Hsent "flights") as (-> & _ & _).
    destruct (Hsent "trains") as (-> & _ & _).
    split; repeat constructor; simpl; congruence.
  - intros Hne. destruct (Hsent "flights") as (_ & -> & _).
    destruct (Hsent "trains") as (_ & -> & _).
    split; repeat constructor; simpl; congruence.
Qed.
End HandlerFacts.

(** ** The listing of recent searches *)

Lemma StronglySorted_lookup_lt {A : Type} (R : relation A) (l : list A)
    (i j : nat) (a b : A) :
  StronglySorted R l -> l !! i = Some a -> l !! j = Some b -> i < j -> R a b.
Proof.
  intros Hs. revert i j.
  induction Hs as [|x l Hs IH Hall]; intros [|i] [|j] Ha Hb Hij;
    simplify_eq/=; try lia.
  - by apply (Forall_lookup_1 _ _ _ _ Hall Hb).
  - apply (IH i j); [done..|lia].
Qed.

Lemma created_at_convert (d : doc) :
  created_at (convert d) =
    match d !! "created_at" with
    | Some (VDatetime t) => VStr (isoformat t)
    | Some v => v
    | None => VStr ""
    end.
Proof.
  unfold created_at, convert.
  assert ((match d !! "_id" with
           | Some v => <["_id" := VStr (py_str v)]> d
           | None => d
           end) !! "created_at" = d !! "created_at") as Hid.
  { destruct (d !! "_id"); [|done]. by rewrite lookup_insert_ne. }
  rewrite Hid.
  destruct (d !! "created_at") as [[| | |]|] eqn:Hc; rewrite ?Hid, ?Hc; try done.
  by rewrite lookup_insert_eq.
Qed.

Section ListingFacts.
Context `{PyRuntime} {Store : Type}.
Variable get_documents : string -> doc -> Z -> M Store (list doc).

(** C2: whatever records the store hands back, a list returned by
    GET /api/searches is in descending [created_at] order: for any record
    A before a record B, [A.created_at >= B.created_at], a missing
    [created_at] counting as the empty string, so that only records with
    an empty key follow one that has none.  A list is returned whenever
    each stored [created_at] is absent, a [str] or a [datetime]; it holds
    the converted records. *)
Theorem list_recent_searches_descending (limit : Z) (st : Store) :
  (forall items st',
      list_recent_searches get_documents limit st = (Returns (Searches.mk items), st') ->
      (forall i j A B, i < j -> items !! i = Some A -> items !! j = Some B ->
                       py_ge (default (VStr "") (A !! "created_at"))
                             (default (VStr "") (B !! "created_at")) = Some true)
      /\ (forall i j A B, i < j -> items !! i = Some A -> items !! j = Some B ->
                          A !! "created_at" = None ->
                          default (VStr "") (B !! "created_at") = VStr ""))
  /\ (forall docs st',
        get_documents "search" ∅ limit st = (Returns docs, st') ->
        Forall (fun d => match d !! "created_at" with
                         | None | Some (VStr _) | Some (VDatetime _) => True
                         | Some _ => False
                         end) docs ->
        exists items,
          list_recent_searches get_documents limit st = (Returns (Searches.mk items), st')
          /\ items ≡ₚ convert <$> docs).
Proof.
  split.
  - intros items st'. rewrite list_recent_searches_eq.
    destruct (get_documents _ _ _ _) as [[docs|e] st'']; [|done].
    destruct (list_sort_reverse _ _) as [l|e] eqn:Hsort; [|done].
    intros [= -> ->]. apply list_sort_reverse_sorted in Hsort.
    assert (forall i j A B, i < j -> items !! i = Some A -> items !! j = Some B ->
              py_ge (created_at A) (created_at B) = Some true) as Hdesc.
    { intros i j A B Hij HA HB.
      by apply (StronglySorted_lookup_lt (key_ge created_at) items i j A B). }
    split; [exact Hdesc|].
    intros i j A B Hij HA HB Hnone.
    specialize (Hdesc i j A B Hij HA HB).
    unfold created_at in Hdesc at 1. rewrite Hnone in Hdesc.
    by apply py_ge_empty in Hdesc.
  - intros docs st' Hget Hok. rewrite list_recent_searches_eq, Hget.
    rewrite (list_sort_reverse_returns created_at (convert <$> docs)).
    + eexists. split; [done|]. apply sorted_desc_perm.
    + apply Forall_fmap. eapply Forall_impl; [exact Hok|].
      intros d Hd. unfold compose. cbv beta in Hd |- *. rewrite created_at_convert.
      destruct (d !! "created_at") as [[| | |]|]; try done; eauto.
Qed.
End ListingFacts.

(** C7: for every limit from 1 to 50, [get_documents] returns at most
    [limit] records, and fails only when no store is available; so does
    GET /api/searches, whose [limit] parameter is held to 1..50 and is 10
    when absent. *)
Theorem get_documents_at_most_limit `{PyRuntime} (limit : Z) :
  (1 <= limit <= 50)%Z ->
  forall (collection : string) (flt : doc) (st : SpecDatabase.Store),
    match SpecDatabase.get_documents collection flt limit st with
    | (Returns docs, _) => (Z.of_nat (length docs) <= limit)%Z
    | (Raises _, _) => st = None
    end
    /\ (forall r st',
          list_recent_searches SpecDatabase.get_documents limit st = (Returns r, st') ->
          (Z.of_nat (length (Searches.items r)) <= limit)%Z)
    /\ (forall status body st',
          get_searches SpecDatabase.get_documents (Some limit) st
            = (Returns (Response status body), st') ->
          (Z.of_nat (length (Searches.items body)) <= limit)%Z)
    /\ (forall status body st',
          get_searches SpecDatabase.get_documents None st
            = (Returns (Response status body), st') ->
          (Z.of_nat (length (Searches.items body)) <= 10)%Z).
Proof.
  intros Hlimit collection flt st.
  assert (forall l r st',
            (0 <= l)%Z ->
            list_recent_searches SpecDatabase.get_documents l st = (Returns r, st') ->
            (Z.of_nat (length (Searches.items r)) <= l)%Z) as Hlist.
  { intros l r st' Hl. rewrite list_recent_searches_eq.
    unfold SpecDatabase.get_documents. destruct st as [colls|]; [|done].
    destruct (list_sort_reverse _ _) as [items|e] eqn:Hsort; [|done].
    intros [= <- <-]. simpl.
    apply list_sort_reverse_perm in Hsort. rewrite Hsort.
    rewrite length_fmap, length_take. lia. }
  split; [|split; [|split]].
  - unfold SpecDatabase.get_documents. destruct st as [colls|]; [|done].
    rewrite length_take. lia.
  - intros r st'. apply Hlist. lia.
  - intros status body st'. unfold get_searches. simpl.
    rewrite bool_decide_true by done.
    destruct (list_recent_searches _ _ _) as [[r|[msg|c d]] st''] eqn:Hrun;
      simpl; try done.
    intros [= <- <- <-]. apply (Hlist limit r st''); [lia|exact Hrun].
  - intros status body st'. unfold get_searches. simpl.
    destruct (list_recent_searches _ _ _) as [[r|[msg|c d]] st''] eqn:Hrun;
      simpl; try done.
    intros [= <- <- <-]. apply (Hlist 10%Z r st''); [lia|exact Hrun].
Qed.

(** ** The diagnostic route *)

(** C5: whatever the handle is (absent, working, with a [name] that cannot
    be read, or with a probe that raises), GET /test returns: the failure
    ends up as a status text in the [database] field, and [collections]
    holds at most ten names. *)
Theorem test_database_never_raises (env : gmap string string) (db : option Database.t) :
  exists r : TestResponse.t,
    test_database env db = Returns r
    /\ length (TestResponse.collections r) <= 10
    /\ TestResponse.database r =
         match db with
         | None => "⚠️ Available but not initialized"
         | Some h =>
             match name_or_connected h, Database.list_collection_names h with
             | Raises e, _ => "❌ Error: " ++ str_prefix 50 (str_exn e)
             | Returns _, Raises e => "⚠️ Connected but Error: " ++ str_prefix 50 (str_exn e)
             | Returns _, Returns _ => "✅ Connected & Working"
             end
         end
    /\ TestResponse.collections r =
         match db with
         | None => []
         | Some h =>
             match name_or_connected h, Database.list_collection_names h with
             | Returns _, Returns collections => take 10 collections
             | _, _ => []
             end
         end.
Proof.
  destruct db as [[[|n|e] [collections|e']]|];
    (eexists; split; [reflexivity|]); simpl;
    rewrite ?length_take; repeat split; lia.
Qed.

(** C8: the [database_url] and [database_name] fields of GET /test are read
    off the environment alone: two handle states under the same environment
    give the same two fields, which say whether [os.getenv] of DATABASE_URL
    and of DATABASE_NAME is truthy. *)
Theorem test_database_env_fields (env : gmap string string) (db1 db2 : option Database.t) :
  exists r1 r2 : TestResponse.t,
    test_database env db1 = Returns r1
    /\ test_database env db2 = Returns r2
    /\ TestResponse.database_url r1 = TestResponse.database_url r2
    /\ TestResponse.database_name r1 = TestResponse.database_name r2
    /\ TestResponse.database_url r1
       = Some (if truthy (getenv env "DATABASE_URL") then "✅ Set" else "❌ Not Set")
    /\ TestResponse.database_name r1
       = Some (if truthy (getenv env "DATABASE_NAME") then "✅ Set" else "❌ Not Set").
Proof.
  destruct db1 as [[[|n1|e1] [c1|e1']]|], db2 as [[[|n2|e2] [c2|e2']]|];
    do 2 eexists; (split; [reflexivity|]); (split; [reflexivity|]); done.
Qed.

(** ** The handlers at work *)

Example flights_lax_jfk :
  serve (search_flights (H := ascii_py) Sample.failing "lax" "jfk" "2024-05-01" []).1
  = Response 200
      [ FlightOption.mk "SkyJet" "SJ201" "2024-05-01T06:30" "2024-05-01T09:05" "2h 35m"
          99.0 "LAX" "JFK";
        FlightOption.mk "AeroWings" "AW318" "2024-05-01T10:15" "2024-05-01T12:55" "2h 40m"
          114.0 "LAX" "JFK";
        FlightOption.mk "CloudAir" "CA722" "2024-05-01T19:45" "2024-05-01T22:25" "2h 40m"
          89.0 "LAX" "JFK" ].
Proof. vm_compute. reflexivity. Qed.

Example hotels_paris :
  HotelOption.location <$> hotels (H := ascii_py) "paris" = ["Paris"; "Paris"; "Paris"].
Proof. vm_compute. reflexivity. Qed.

Example title_words : ascii_title "new york-city o'neil 3rd" = "New York-City O'Neil 3Rd".
Proof. vm_compute. reflexivity. Qed.

Example isoformat_fraction :
  isoformat Sample.may_1 = "2024-05-01T09:03:00"
  /\ isoformat Sample.may_2 = "2024-05-02T18:30:07.250000".
Proof. vm_compute. done. Qed.

Example flights_log_after_failure :
  (search_flights (H := ascii_py) Sample.failing "lax" "jfk" "2024-05-01" []).2
  = [("search", PDict {[ "type" := VStr "flights"; "origin" := VStr "lax";
                         "destination" := VStr "jfk"; "date" := VStr "2024-05-01" ]})].
Proof. vm_compute. reflexivity. Qed.

Example create_search_boats :
  create_search Sample.working Sample.boat_search []
  = (Returns {[ "status" := VStr "ok"; "id" := VStr "665f1c2e9b1e8a0012ab34c5" ]},
     [("search", PModel Sample.boat_search)])
  /\ serve (create_search Sample.failing Sample.boat_search []).1
     = ErrorResponse 500 "insert failed".
Proof. vm_compute. done. Qed.

Example recent_searches_order :
  match (list_recent_searches (H := ascii_py) SpecDatabase.get_documents 10 Sample.store).1 with
  | Returns r =>
      (fun d : doc => (d !! "_id", d !! "created_at")) <$> Searches.items r
      = [ (Some (VStr "665f1c2e9b1e8a0012ab34c3"), Some (VStr "2024-05-02T18:30:07.250000"));
          (Some (VStr "665f1c2e9b1e8a0012ab34c1"), Some (VStr "2024-05-01T09:03:00"));
          (Some (VStr "665f1c2e9b1e8a0012ab34c4"), Some (VStr "2024-05-01T09:03:00"));
          (Some (VStr "665f1c2e9b1e8a0012ab34c2"), None) ]
  | Raises _ => False
  end.
Proof. vm_compute. reflexivity. Qed.

Example recent_searches_unavailable :
  serve (list_recent_searches (H := ascii_py) SpecDatabase.get_documents 10 None).1
  = ErrorResponse 500 "StorageUnavailable".
Proof. vm_compute. reflexivity. Qed.

Example recent_searches_none_key :
  serve (list_recent_searches (H := ascii_py)
           (fun _ _ _ => ret (S := unit)
              [ {[ "created_at" := VNone ]}; {[ "created_at" := VStr "2024-05-01" ]} ])
           10 tt).1
  = ErrorResponse 500 "'<' not supported between instances".
Proof. vm_compute. reflexivity. Qed.

Example searches_limit_out_of_range :
  (get_searches (H := ascii_py) SpecDatabase.get_documents (Some 51%Z) Sample.store).1
  = Returns (ErrorResponse 422 "limit").
Proof. vm_compute. reflexivity. Qed.

Example test_without_database :
  test_database ∅ None
  = Returns (TestResponse.mk "✅ Running" "⚠️ Available but not initialized"
               (Some "❌ Not Set") (Some "❌ Not Set") "Not Connected" []).
Proof. vm_compute. reflexivity. Qed.

Example test_probe_failure :
  test_database {[ "DATABASE_URL" := "mongodb://db:27017"; "DATABASE_NAME" := "" ]}
    (Some (Database.mk (Attr "travel") (Raises (Exception "timed out"))))
  = Returns (TestResponse.mk "✅ Running" "⚠️ Connected but Error: timed out"
               (Some "✅ Set") (Some "❌ Not Set") "Connected" []).
Proof. vm_compute. reflexivity. Qed.

(** ** The theorems applied to the sample data *)

Lemma list_recent_searches_descending_witness :
  exists items : list doc,
    list_recent_searches (H := ascii_py) SpecDatabase.get_documents 10 Sample.store
      = (Returns (Searches.mk items), Sample.store)
    /\ (forall i j A B, i < j -> items !! i = Some A -> items !! j = Some B ->
                        py_ge (default (VStr "") (A !! "created_at"))
                              (default (VStr "") (B !! "created_at")) = Some true).
Proof.
  destruct (proj2 (list_recent_searches_descending (H := ascii_py)
                     SpecDatabase.get_documents 10 Sample.store)
              Sample.docs Sample.store eq_refl) as (items & Hrun & _).
  { repeat constructor. }
  exists items. split; [exact Hrun|].
  exact (proj1 (proj1 (list_recent_searches_descending (H := ascii_py)
                         SpecDatabase.get_documents 10 Sample.store)
                  items Sample.store Hrun)).
Defined.

Lemma get_documents_at_most_limit_witness :
  (1 <= 2 <= 50)%Z
  /\ match SpecDatabase.get_documents "search" ∅ 2 Sample.store with
     | (Returns docs, _) => (Z.of_nat (length docs) <= 2)%Z
     | (Raises _, _) => Sample.store = None
     end.
Proof.
  split; [lia|].
  exact (proj1 (get_documents_at_most_limit (H := ascii_py) 2 ltac:(lia)
                  "search" ∅ Sample.store)).
Defined.

Lemma search_log_keeps_client_casing_witness :
  "lax" <> upper (PyRuntime := ascii_py) "lax"
  /\ exists fs,
      (search_flights (H := ascii_py) Sample.failing "lax" "jfk" "2024-05-01" []).1
        = Returns fs
      /\ Forall (fun f => Some (VStr (FlightOption.origin f)) <> Some (VStr "lax")) fs.
Proof.
  assert ("lax" <> upper (PyRuntime := ascii_py) "lax") as Hne by (vm_compute; discriminate).
  split; [exact Hne|].
  destruct (search_log_keeps_client_casing (H := ascii_py) Sample.failing
              "lax" "jfk" "2024-05-01" [])
    as (_ & _ & _ & _ & fs & ts & Hfs & _ & _ & _ & Horigin & _).
  exists fs. split; [exact Hfs|]. exact (proj1 (Horigin Hne)).
Defined.


(** * Further properties of the route functions *)

(** ** The loop body of the listing *)

Lemma convert_lookup_id (d : doc) :
  convert d !! "_id" = (fun v => VStr (py_str v)) <$> d !! "_id".
Proof.
  unfold convert.
  destruct (d !! "_id") as [v|] eqn:Hid.
  - destruct (<["_id":=VStr (py_str v)]> d !! "created_at") as [[| |t|]|];
      by simplify_map_eq.
  - destruct (d !! "created_at") as [[| |t|]|]; by simplify_map_eq.
Qed.

Lemma convert_lookup_created_at (d : doc) :
  convert d !! "created_at"
  = (fun v => match v with VDatetime t => VStr (isoformat t) | _ => v end)
      <$> d !! "created_at".
Proof.
  pose proof (created_at_convert d) as Hkey. unfold created_at in Hkey.
  unfold convert in *.
  destruct (d !! "_id") as [v|] eqn:Hid.
  - rewrite lookup_insert_ne by done.
    destruct (d !! "created_at") as [[| |t|]|] eqn:Hc; by simplify_map_eq.
  - destruct (d !! "created_at") as [[| |t|]|] eqn:Hc; by simplify_map_eq.
Qed.

Lemma convert_lookup_other (d : doc) (k : string) :
  k <> "_id" -> k <> "created_at" -> convert d !! k = d !! k.
Proof.
  intros Hid Hc. unfold convert.
  destruct (d !! "_id") as [v|].
  - rewrite lookup_insert_ne by done.
    destruct (d !! "created_at") as [[| |t|]|]; by simplify_map_eq.
  - destruct (d !! "created_at") as [[| |t|]|]; by simplify_map_eq.
Qed.

(** X1: the loop body rewrites two fields and nothing else.  [_id], when
    present, becomes the text [str()] gives for it; [created_at], when it is
    a [datetime], becomes its ISO text; every other field keeps its value,
    and no key is added or removed. *)
Theorem convert_touches_two_fields (d : doc) :
  convert d !! "_id" = (fun v => VStr (py_str v)) <$> d !! "_id"
  /\ convert d !! "created_at"
     = (fun v => match v with VDatetime t => VStr (isoformat t) | _ => v end)
         <$> d !! "created_at"
  /\ (forall k, k <> "_id" -> k <> "created_at" -> convert d !! k = d !! k)
  /\ dom (convert d) = dom d.
Proof.
  split; [apply convert_lookup_id|].
  split; [apply convert_lookup_created_at|].
  split; [apply convert_lookup_other|].
  apply set_eq. intros k. rewrite !elem_of_dom.
  destruct (decide (k = "_id")) as [->|Hid].
  { rewrite convert_lookup_id. by rewrite fmap_is_Some. }
  destruct (decide (k = "created_at")) as [->|Hc].
  { rewrite convert_lookup_created_at. by rewrite fmap_is_Some. }
  by rewrite convert_lookup_other.
Qed.

(** X2: the loop body is idempotent: a dict that the loop reaches twice ends
    up as one that it reaches once. *)
Theorem convert_idempotent (d : doc) : convert (convert d) = convert d.
Proof.
  apply map_eq. intros k.
  destruct (decide (k = "_id")) as [->|Hid].
  { rewrite !convert_lookup_id. by destruct (d !! "_id"). }
  destruct (decide (k = "created_at")) as [->|Hc].
  { rewrite !convert_lookup_created_at. by destruct (d !! "created_at") as [[| |t|]|]. }
  by rewrite !convert_lookup_other.
Qed.

(** ** What the listing returns *)

Section ListingMore.
Context `{PyRuntime} {Store : Type}.
Variable create_document : string -> payload -> M Store string.
Variable get_documents : string -> doc -> Z -> M Store (list doc).

(** X3: GET /api/searches neither drops nor invents a record: what it
    returns is a rearrangement of the converted records that
    [get_documents] handed over, of the same length, and the store is left
    as [get_documents] left it. *)
Theorem listing_keeps_every_record
    (limit : Z) (st st' st'' : Store) (docs : list doc) (r : Searches.t) :
  get_documents "search" ∅ limit st = (Returns docs, st') ->
  list_recent_searches get_documents limit st = (Returns r, st'') ->
  Searches.items r ≡ₚ convert <$> docs
  /\ length (Searches.items r) = length docs
  /\ st'' = st'.
Proof.
  intros Hget. rewrite list_recent_searches_eq, Hget.
  destruct (list_sort_reverse _ _) as [items|e] eqn:Hsort; [|done].
  intros [= <- <-]. simpl.
  apply list_sort_reverse_perm in Hsort.
  split; [done|]. split; [|done]. by rewrite Hsort, length_fmap.
Qed.

(** X4: the sort is stable: the returned records that share a [created_at]
    key stand in the order in which [get_documents] delivered them. *)
Theorem listing_ties_keep_retrieval_order
    (limit : Z) (st st' st'' : Store) (docs : list doc) (r : Searches.t) (k : value) :
  get_documents "search" ∅ limit st = (Returns docs, st') ->
  list_recent_searches get_documents limit st = (Returns r, st'') ->
  filter (fun d => created_at d = k) (Searches.items r)
  = filter (fun d => created_at d = k) (convert <$> docs).
Proof.
  intros Hget. rewrite list_recent_searches_eq, Hget.
  destruct (list_sort_reverse _ _) as [items|e] eqn:Hsort; [|done].
  intros [= <- <-]. simpl.
  by apply (list_sort_reverse_stable created_at k) in Hsort.
Qed.

(** X5: in every record that GET /api/searches returns, [_id] is a string
    when present, never an ObjectId, and [created_at] is never a
    [datetime]. *)
Theorem listing_ids_and_dates_are_text
    (limit : Z) (st st' : Store) (r : Searches.t) :
  list_recent_searches get_documents limit st = (Returns r, st') ->
  Forall (fun d : doc =>
            (forall v, d !! "_id" = Some v -> exists s, v = VStr s)
            /\ (forall t, d !! "created_at" <> Some (VDatetime t)))
         (Searches.items r).
Proof.
  rewrite list_recent_searches_eq.
  destruct (get_documents _ _ _ _) as [[docs|e] st'']; [|done].
  destruct (list_sort_reverse _ _) as [items|e] eqn:Hsort; [|done].
  intros [= <- <-]. simpl.
  apply list_sort_reverse_perm in Hsort. rewrite Hsort.
  apply Forall_fmap, Forall_forall. intros d _. unfold compose. split.
  - intros v. rewrite convert_lookup_id.
    destruct (d !! "_id"); intros [= <-]; eauto.
  - intros t. rewrite convert_lookup_created_at.
    by destruct (d !! "created_at") as [[| |t'|]|].
Qed.

(** X6: with no record or a single one there is nothing to compare: the
    listing succeeds whatever [created_at] holds and returns the converted
    records as they came. *)
Theorem listing_of_at_most_one_record
    (limit : Z) (st st' : Store) (docs : list doc) :
  get_documents "search" ∅ limit st = (Returns docs, st') ->
  length docs <= 1 ->
  list_recent_searches get_documents limit st
  = (Returns (Searches.mk (convert <$> docs)), st').
Proof.
  intros Hget Hlen. rewrite list_recent_searches_eq, Hget.
  destruct docs as [|d [|d' docs]]; simpl in *; [done..|lia].
Qed.

(** X7: when two or more records come back and two of the sort keys cannot
    be compared with [<] (a [created_at] that is [None], or a string next
    to an ObjectId), the [TypeError] of the sort ends the request with
    HTTP 500. *)
Theorem listing_fails_on_unordered_keys
    (limit : Z) (st st' : Store) (docs : list doc) (a b : doc) :
  get_documents "search" ∅ limit st = (Returns docs, st') ->
  2 <= length docs ->
  a ∈ docs -> b ∈ docs ->
  py_lt (created_at (convert a)) (created_at (convert b)) = None ->
  list_recent_searches get_documents limit st
  = (Raises (HTTPException 500 (sort_type_error (created_at <$> (convert <$> docs)))), st')
  /\ serve (list_recent_searches get_documents limit st).1
     = ErrorResponse 500 (sort_type_error (created_at <$> (convert <$> docs))).
Proof.
  intros Hget Hlen Ha Hb Hlt.
  rewrite list_recent_searches_eq, Hget.
  assert (list_sort_reverse created_at (convert <$> docs)
          = Raises (Exception (sort_type_error (created_at <$> (convert <$> docs)))))
    as ->; [|done].
  unfold list_sort_reverse.
  destruct docs as [|d [|d' docs]]; simpl in Hlen; [lia..|].
  destruct (comparable _) eqn:Hc; [|done].
  exfalso.
  assert (supported (created_at (convert a)) (created_at (convert b)) = true) as Hs.
  { apply (comparable_supported _ _ _ Hc);
      by apply list_elem_of_fmap_2, list_elem_of_fmap_2. }
  unfold supported in Hs. by rewrite Hlt in Hs.
Qed.

(** X8: POST /api/search and GET /api/searches let no exception of their
    own escape: whatever the store does, each of them returns or raises
    [HTTPException] with status 500, so that the client sees 200 or 500; the
    validated GET /api/searches adds 422 and nothing else. *)
Theorem surfaced_errors_are_http_500
    (search : SearchQuery.t) (limit : Z) (query_limit : option Z) (st : Store) :
  ((exists body, (create_search create_document search st).1 = Returns body)
   \/ (exists detail,
         (create_search create_document search st).1 = Raises (HTTPException 500 detail)))
  /\ ((exists body, (list_recent_searches get_documents limit st).1 = Returns body)
      \/ (exists detail,
            (list_recent_searches get_documents limit st).1
            = Raises (HTTPException 500 detail)))
  /\ match (get_searches get_documents query_limit st).1 with
     | Returns (Response status _) => status = 200%Z
     | Returns (ErrorResponse status _) => status = 422%Z \/ status = 500%Z
     | Raises _ => False
     end.
Proof.
  assert (forall l,
            (exists body, (list_recent_searches get_documents l st).1 = Returns body)
            \/ (exists detail,
                  (list_recent_searches get_documents l st).1
                  = Raises (HTTPException 500 detail))) as Hlist.
  { intros l. rewrite list_recent_searches_eq.
    destruct (get_documents _ _ _ _) as [[docs|e] st']; [|simpl; eauto].
    destruct (list_sort_reverse _ _) as [items|e]; simpl; eauto. }
  split; [|split; [apply Hlist|]].
  - rewrite create_search_eq.
    destruct (create_document _ _ _) as [[doc_id|e] st']; simpl; eauto.
  - unfold get_searches. case_bool_decide; [|simpl; by left].
    destruct (Hlist (default 10%Z query_limit)) as [[body Hrun]|[detail Hrun]];
      destruct (list_recent_searches _ _ _) as [o st']; simpl in *; subst o; simpl; auto.
Qed.
End ListingMore.

(** ** The mock searches *)

Section MockMore.
Context `{PyRuntime} {Store : Type}.
Variable create_document : string -> payload -> M Store string.

(** X9: GET /api/search/trains answers 200 with exactly two entries, priced
    24.0 and 27.5 in this order, each carrying the upper-cased origin and
    destination, whatever the parameters and whatever the store does. *)
Theorem search_trains_two_entries (origin destination date : string) (st : Store) :
  exists t1 t2 : TrainOption.t,
    serve (search_trains create_document origin destination date st).1
      = Response 200 [t1; t2]
    /\ TrainOption.price <$> [t1; t2] = [24.0; 27.5]%float
    /\ Forall (fun t => TrainOption.origin t = upper origin
                        /\ TrainOption.destination t = upper destination)
              [t1; t2].
Proof.
  rewrite search_trains_eq. unfold trains. simpl.
  do 2 eexists. split; [reflexivity|]. repeat split; repeat constructor.
Qed.

(** X10: the hotel search hands [create_document] the city, check-in and
    check-out as the client sent them (a recording store logs exactly that
    dict), while the answer is built from the city alone: it is the same for
    every check-in and check-out, and its locations carry the title-cased
    city, which differs from the stored one whenever the city is not already
    title-cased. *)
Theorem search_hotels_log_and_answer (city checkin checkout : string) (st : Store) :
  let sent : doc :=
    {[ "type" := VStr "hotels"; "city" := VStr city;
       "checkin" := VStr checkin; "checkout" := VStr checkout ]} in
  (search_hotels create_document city checkin checkout st).2
    = (create_document "search" (PDict sent) st).2
  /\ (forall answer log,
        (search_hotels (Recorder.create_document answer) city checkin checkout log).2
        = (log ++ [("search", PDict sent)])%list)
  /\ (sent !! "type" = Some (VStr "hotels") /\ sent !! "city" = Some (VStr city)
      /\ sent !! "checkin" = Some (VStr checkin)
      /\ sent !! "checkout" = Some (VStr checkout))
  /\ (forall checkin' checkout' st2,
        (search_hotels create_document city checkin' checkout' st2).1
        = (search_hotels create_document city checkin checkout st).1)
  /\ (city <> title city ->
      exists hs,
        (search_hotels create_document city checkin checkout st).1 = Returns hs
        /\ Forall (fun h => Some (VStr (HotelOption.location h)) <> sent !! "city") hs).
Proof.
  intros sent.
  assert (sent !! "type" = Some (VStr "hotels") /\ sent !! "city" = Some (VStr city)
          /\ sent !! "checkin" = Some (VStr checkin)
          /\ sent !! "checkout" = Some (VStr checkout)) as Hsent.
  { subst sent. by simplify_map_eq. }
  split; [by rewrite search_hotels_eq|].
  split.
  { intros answer log.
    unfold search_hotels, try_except, bind, ret, Recorder.create_document.
    by destruct (answer _ _). }
  split; [exact Hsent|].
  split; [intros; by rewrite !search_hotels_eq|].
  intros Hne. rewrite search_hotels_eq. exists (hotels city). split; [done|].
  destruct Hsent as (_ & -> & _).
  repeat constructor; simpl; congruence.
Qed.

(** X11: the date parameter is not checked: whatever string it is, every
    departure and arrival time of the flight and train results is that
    string followed by [T] and a five character clock time. *)
Theorem mock_times_carry_the_date (origin destination date : string) (st : Store) :
  exists fs ts,
    (search_flights create_document origin destination date st).1 = Returns fs
    /\ (search_trains create_document origin destination date st).1 = Returns ts
    /\ Forall (fun f => exists c1 c2,
                 FlightOption.depart_time f = date ++ "T" ++ c1
                 /\ FlightOption.arrive_time f = date ++ "T" ++ c2
                 /\ String.length c1 = 5 /\ String.length c2 = 5) fs
    /\ Forall (fun t => exists c1 c2,
                 TrainOption.depart_time t = date ++ "T" ++ c1
                 /\ TrainOption.arrive_time t = date ++ "T" ++ c2
                 /\ String.length c1 = 5 /\ String.length c2 = 5) ts.
Proof.
  rewrite search_flights_eq, search_trains_eq.
  do 2 eexists. split; [reflexivity|]. split; [reflexivity|].
  unfold flights, trains.
  split; repeat constructor; simpl; do 2 eexists; repeat split.
Qed.
End MockMore.

(** ** More on the diagnostic route *)






(** X14: the placeholders that the response starts with never reach the
    caller: [database] is never "❌ Not Available", [database_url] and
    [database_name] are never [None], and [backend] is always "✅ Running". *)
Theorem test_database_placeholders_overwritten
    (env : gmap string string) (db : option Database.t) :
  exists r : TestResponse.t,
    test_database env db = Returns r
    /\ TestResponse.backend r = "✅ Running"
    /\ TestResponse.database r <> "❌ Not Available"
    /\ TestResponse.database_url r <> None
    /\ TestResponse.database_name r <> None.
Proof.
  destruct db as [[[|n|e] [collections|e']]|];
    (eexists; split; [reflexivity|]); simpl; repeat split; discriminate.
Qed.

(** X15: the two signals of GET /test can disagree.  With a working handle
    and no DATABASE_URL in the environment it reports "✅ Connected &
    Working" next to "❌ Not Set"; with DATABASE_URL set and no handle it
    reports "✅ Set" next to "⚠️ Available but not initialized". *)
Theorem test_database_signals_disagree
    (env : gmap string string) (h : Database.t) (n : string) (collections : list string) :
  name_or_connected h = Returns n ->
  Database.list_collection_names h = Returns collections ->
  (truthy (getenv env "DATABASE_URL") = false ->
   exists r, test_database env (Some h) = Returns r
             /\ TestResponse.database r = "✅ Connected & Working"
             /\ TestResponse.database_url r = Some "❌ Not Set")
  /\ (truthy (getenv env "DATABASE_URL") = true ->
      exists r, test_database env None = Returns r
                /\ TestResponse.database r = "⚠️ Available but not initialized"
                /\ TestResponse.database_url r = Some "✅ Set").
Proof.
  destruct h as [nm probe]. unfold name_or_connected. simpl.
  intros Hname ->. split; intros Henv.
  - destruct nm as [|n0|e0]; try done;
      (eexists; split; [reflexivity|]; simpl; by rewrite Henv).
  - eexists. split; [reflexivity|]. simpl. by rewrite Henv.
Qed.

(** ** ISO texts of timestamps keep their order *)

Lemma string_app_assoc (s t u : string) : (s ++ t) ++ u = s ++ (t ++ u).
Proof.
  induction s as [|c s IH]; [done|].
  change (String c ((s ++ t) ++ u) = String c (s ++ (t ++ u))). by f_equal.
Qed.

Lemma string_length_app (s t : string) :
  String.length (s ++ t) = String.length s + String.length t.
Proof.
  induction s as [|c s IH]; [done|].
  change (S (String.length (s ++ t)) = S (String.length s + String.length t)).
  by f_equal.
Qed.

Lemma ascii_compare_refl (c : ascii) : Ascii.compare c c = Eq.
Proof. unfold Ascii.compare. apply N.compare_refl. Qed.

Lemma string_compare_app_same (p s t : string) :
  String.compare (p ++ s) (p ++ t) = String.compare s t.
Proof.
  induction p as [|c p IH]; [done|].
  change (String.compare (String c (p ++ s)) (String c (p ++ t)) = String.compare s t).
  simpl. by rewrite ascii_compare_refl.
Qed.

Lemma string_compare_app_lt (a b s t : string) :
  String.length a = String.length b ->
  String.compare a b = Lt -> String.compare (a ++ s) (b ++ t) = Lt.
Proof.
  revert b. induction a as [|c a IH]; intros [|c' b] Hlen Hlt; try done.
  change (String.compare (String c (a ++ s)) (String c' (b ++ t)) = Lt).
  simpl in *. destruct (Ascii.compare c c'); [|done..].
  apply IH; [lia|done].
Qed.

Lemma pretty_N_char_lt (x y : N) :
  (x < y)%N -> (y < 10)%N ->
  Ascii.compare (pretty_N_char x) (pretty_N_char y) = Lt.
Proof.
  intros Hxy Hy.
  assert (y = 1 \/ y = 2 \/ y = 3 \/ y = 4 \/ y = 5 \/ y = 6 \/ y = 7 \/ y = 8 \/ y = 9)%N
    as Hcases by lia.
  assert (x = 0 \/ x = 1 \/ x = 2 \/ x = 3 \/ x = 4 \/ x = 5 \/ x = 6 \/ x = 7 \/ x = 8)%N
    as Hcases' by lia.
  repeat (destruct Hcases as [->|Hcases] || (rewrite Hcases in *; clear Hcases));
    repeat (destruct Hcases' as [->|Hcases'] || (rewrite Hcases' in *; clear Hcases'));
    solve [reflexivity | lia].
Qed.

Lemma digits_length (w : nat) (n : N) : String.length (digits w n) = w.
Proof.
  revert n. induction w as [|w IH]; intros n; simpl; [done|].
  rewrite string_length_app, IH. simpl. lia.
Qed.

Lemma digits_zero (w : nat) : digits w 0 = zeros w.
Proof.
  induction w as [|w IH]; simpl; [done|].
  change (0 `div` 10)%N with 0%N. rewrite IH. clear IH.
  induction w as [|w IH]; [done|].
  change (String "0" (zeros w ++ "0") = String "0" (String "0" (zeros w))).
  f_equal. exact IH.
Qed.

Lemma digits_lt (w : nat) (n m : N) :
  (n < m)%N -> (m < 10 ^ N.of_nat w)%N ->
  String.compare (digits w n) (digits w m) = Lt.
Proof.
  revert n m. induction w as [|w IH]; intros n m Hnm Hm.
  { simpl in Hm. lia. }
  simpl.
  assert (m `div` 10 < 10 ^ N.of_nat w)%N as Hm'.
  { apply N.Div0.div_lt_upper_bound.
    rewrite Nat2N.inj_succ, N.pow_succ_r' in Hm. lia. }
  assert (n `div` 10 <= m `div` 10)%N as Hle by (apply N.Div0.div_le_mono; lia).
  pose proof (N.div_mod n 10 ltac:(done)) as Hn10.
  pose proof (N.div_mod m 10 ltac:(done)) as Hm10.
  pose proof (N.mod_upper_bound n 10 ltac:(done)).
  pose proof (N.mod_upper_bound m 10 ltac:(done)).
  destruct (decide (n `div` 10 = m `div` 10)%N) as [Heq|Hne].
  - rewrite Heq, string_compare_app_same. simpl.
    rewrite pretty_N_char_lt; [done|lia|done].
  - apply string_compare_app_lt; [by rewrite !digits_length|].
    apply IH; [lia|done].
Qed.

Lemma pretty_N_go_app (x : N) (s : string) : pretty_N_go x s = pretty_N_go x "" ++ s.
Proof.
  revert s. induction (N.lt_wf_0 x) as [x _ IH]; intros s.
  destruct (decide (x = 0)%N) as [->|Hx]; [by rewrite !pretty_N_go_0|].
  rewrite !(pretty_N_go_step x) by lia.
  rewrite (IH (x `div` 10)%N) by (apply N.div_lt; lia).
  rewrite (IH (x `div` 10)%N ltac:(apply N.div_lt; lia) (String _ "")).
  by rewrite string_app_assoc.
Qed.

Lemma pretty_N_small (n : N) :
  (n < 10)%N -> pretty n = String (pretty_N_char n) "".
Proof.
  intros Hn. unfold pretty, pretty_N.
  destruct (decide (n = 0)%N) as [->|Hn0]; [done|].
  rewrite pretty_N_go_step by lia.
  rewrite N.div_small, N.mod_small by lia. by rewrite pretty_N_go_0.
Qed.

Lemma pretty_N_snoc (n : N) :
  (10 <= n)%N ->
  pretty n = pretty (n `div` 10)%N ++ String (pretty_N_char (n `mod` 10)) "".
Proof.
  intros Hn. unfold pretty, pretty_N.
  assert (0 < n `div` 10)%N by (apply N.div_str_pos; lia).
  rewrite !decide_False by lia.
  rewrite pretty_N_go_step by lia. apply pretty_N_go_app.
Qed.

Lemma zfill_digits (w : nat) (n : N) :
  (n < 10 ^ N.of_nat (S w))%N -> zfill (S w) n = digits (S w) n.
Proof.
  revert n. induction w as [|w IH]; intros n Hn.
  - change (10 ^ N.of_nat 1)%N with 10%N in Hn.
    unfold zfill. rewrite pretty_N_small by done. simpl.
    by rewrite N.mod_small.
  - destruct (decide (n < 10)%N) as [Hsmall|Hbig].
    + unfold zfill. rewrite pretty_N_small by done.
      change (digits (S (S w)) n)
        with (digits (S w) (n `div` 10) ++ String (pretty_N_char (n `mod` 10)) "").
      rewrite N.div_small, N.mod_small by done. by rewrite digits_zero.
    + assert (n `div` 10 < 10 ^ N.of_nat (S w))%N as Hdiv.
      { apply N.Div0.div_lt_upper_bound.
        rewrite (Nat2N.inj_succ (S w)), N.pow_succ_r' in Hn. lia. }
      change (digits (S (S w)) n)
        with (digits (S w) (n `div` 10) ++ String (pretty_N_char (n `mod` 10)) "").
      rewrite <- (IH _ Hdiv). unfold zfill.
      rewrite (pretty_N_snoc n) by lia.
      rewrite string_length_app. simpl String.length.
      replace (S (S w) - (String.length (pretty (n `div` 10)%N) + 1))
        with (S w - String.length (pretty (n `div` 10)%N)) by lia.
      by rewrite string_app_assoc.
Qed.

(** The comparison of two texts that start with a zero-padded number is
    decided by the numbers, and by what follows when they are equal. *)
Lemma zfill_compare (w : nat) (x y : N) (s t : string) :
  (x < 10 ^ N.of_nat (S w))%N -> (y < 10 ^ N.of_nat (S w))%N ->
  String.compare (zfill (S w) x ++ s) (zfill (S w) y ++ t)
  = match N.compare x y with
    | Eq => String.compare s t
    | c => c
    end.
Proof.
  intros Hx Hy. rewrite !zfill_digits by done.
  destruct (N.compare_spec x y) as [->|Hlt|Hgt].
  - apply string_compare_app_same.
  - apply string_compare_app_lt; [by rewrite !digits_length|by apply digits_lt].
  - rewrite String.compare_antisym.
    rewrite string_compare_app_lt; [done|by rewrite !digits_length|by apply digits_lt].
Qed.

Lemma zfill2_compare (x y : N) (s t : string) :
  (x < 100)%N -> (y < 100)%N ->
  String.compare (zfill 2 x ++ s) (zfill 2 y ++ t)
  = match N.compare x y with Eq => String.compare s t | c => c end.
Proof. intros. by apply (zfill_compare 1). Qed.

Lemma zfill4_compare (x y : N) (s t : string) :
  (x < 10000)%N -> (y < 10000)%N ->
  String.compare (zfill 4 x ++ s) (zfill 4 y ++ t)
  = match N.compare x y with Eq => String.compare s t | c => c end.
Proof. intros. by apply (zfill_compare 3). Qed.

Lemma fraction_compare_lt (x y : N) :
  (x < y)%N -> (y < 1000000)%N ->
  String.compare (if decide (x = 0%N) then "" else "." ++ zfill 6 x)
                 (if decide (y = 0%N) then "" else "." ++ zfill 6 y) = Lt.
Proof.
  intros Hxy Hy. rewrite (decide_False (P := y = 0%N)) by lia.
  destruct (decide (x = 0%N)) as [->|Hx]; [done|].
  rewrite string_compare_app_same.
  rewrite !(zfill_digits 5) by (change (10 ^ N.of_nat 6)%N with 1000000%N; lia).
  apply digits_lt; [done|]. by change (10 ^ N.of_nat 6)%N with 1000000%N.
Qed.

Ltac by_first_field H :=
  match goal with
  | |- context [N.compare ?x ?y] =>
      destruct (N.compare_spec x y) as [->|?|?];
      [rewrite N.ltb_irrefl in H
      |done
      |exfalso;
       rewrite (proj2 (N.ltb_ge x y)) in H by lia;
       rewrite (proj2 (N.ltb_lt y x)) in H by lia; done]
  end.

(** An earlier timestamp has the smaller ISO text. *)
Lemma isoformat_lt (d e : datetime) :
  valid_datetime d -> valid_datetime e ->
  datetime_ltb d e = true -> String.ltb (isoformat d) (isoformat e) = true.
Proof.
  destruct d as [y1 mo1 d1 h1 mi1 s1 us1], e as [y2 mo2 d2 h2 mi2 s2 us2].
  unfold valid_datetime, datetime_ltb, datetime_fields. simpl.
  intros (Hy1 & Hmo1 & Hd1 & Hh1 & Hmi1 & Hs1 & Hus1)
         (Hy2 & Hmo2 & Hd2 & Hh2 & Hmi2 & Hs2 & Hus2) Hlt.
  unfold String.ltb, isoformat, isoformat_sep. simpl.
  assert (String.compare
            (zfill 4 y1 ++ "-" ++ zfill 2 mo1 ++ "-" ++ zfill 2 d1 ++ "T"
             ++ zfill 2 h1 ++ ":" ++ zfill 2 mi1 ++ ":" ++ zfill 2 s1
             ++ (if decide (us1 = 0%N) then "" else "." ++ zfill 6 us1))
            (zfill 4 y2 ++ "-" ++ zfill 2 mo2 ++ "-" ++ zfill 2 d2 ++ "T"
             ++ zfill 2 h2 ++ ":" ++ zfill 2 mi2 ++ ":" ++ zfill 2 s2
             ++ (if decide (us2 = 0%N) then "" else "." ++ zfill 6 us2)) = Lt)
    as ->; [|done].
  rewrite zfill4_compare by lia. by_first_field Hlt.
  rewrite string_compare_app_same, zfill2_compare by lia. by_first_field Hlt.
  rewrite string_compare_app_same, zfill2_compare by lia. by_first_field Hlt.
  rewrite string_compare_app_same, zfill2_compare by lia. by_first_field Hlt.
  rewrite string_compare_app_same, zfill2_compare by lia. by_first_field Hlt.
  rewrite string_compare_app_same, zfill2_compare by lia. by_first_field Hlt.
  apply fraction_compare_lt; [|done].
  destruct (N.ltb_spec us1 us2); [done|].
  destruct (N.ltb_spec us2 us1); done.
Qed.


Section NewestFirst.
Context `{PyRuntime} {Store : Type}.
Variable get_documents : string -> doc -> Z -> M Store (list doc).

(** X16: records stamped with a [datetime] are listed newest first: when
    the conversion of a record [a] is returned before the conversion of a
    record [b], and both carry a [datetime] within the ranges the
    constructor allows, [a] is not older than [b]. *)
Theorem listing_newest_first
    (limit : Z) (st st' : Store) (r : Searches.t)
    (i j : nat) (a b : doc) (ta tb : datetime) :
  list_recent_searches get_documents limit st = (Returns r, st') ->
  i < j ->
  Searches.items r !! i = Some (convert a) ->
  Searches.items r !! j = Some (convert b) ->
  a !! "created_at" = Some (VDatetime ta) ->
  b !! "created_at" = Some (VDatetime tb) ->
  valid_datetime ta -> valid_datetime tb ->
  datetime_ltb ta tb = false.
Proof.
  rewrite list_recent_searches_eq.
  destruct (get_documents _ _ _ _) as [[docs|e] st'']; [|done].
  destruct (list_sort_reverse _ _) as [items|e] eqn:Hsort; [|done].
  intros [= <- <-] Hij Hi Hj Ha Hb Hva Hvb. simpl in Hi, Hj.
  apply list_sort_reverse_sorted in Hsort.
  pose proof (StronglySorted_lookup_lt _ _ _ _ _ _ Hsort Hi Hj Hij) as Hge.
  unfold key_ge in Hge. rewrite !created_at_convert, Ha, Hb in Hge.
  cbn [py_ge] in Hge. apply (inj Some) in Hge.
  destruct (datetime_ltb ta tb) eqn:Hlt; [|done].
  apply (isoformat_lt _ _ Hva Hvb) in Hlt.
  unfold String.ltb, String.leb in *.
  rewrite (String.compare_antisym (isoformat tb) (isoformat ta)) in Hge.
  by destruct (String.compare (isoformat ta) (isoformat tb)).
Qed.
End NewestFirst.

(** ** The further properties applied to the sample data *)

Lemma listing_keeps_every_record_witness :
  exists r : Searches.t,
    list_recent_searches (H := ascii_py) SpecDatabase.get_documents 10 Sample.store
      = (Returns r, Sample.store)
    /\ Searches.items r ≡ₚ convert <$> Sample.docs
    /\ length (Searches.items r) = 4.
Proof.
  destruct (list_recent_searches (H := ascii_py) SpecDatabase.get_documents 10 Sample.store)
    as [[r|e] st] eqn:Hrun; [|by vm_compute in Hrun].
  destruct (listing_keeps_every_record (H := ascii_py) SpecDatabase.get_documents
              10 Sample.store Sample.store st Sample.docs r eq_refl Hrun)
    as (Hperm & Hlen & ->).
  exists r. split; [|split]; done.
Defined.

Lemma listing_ties_keep_retrieval_order_witness :
  exists r : Searches.t,
    list_recent_searches (H := ascii_py) SpecDatabase.get_documents 10 Sample.store
      = (Returns r, Sample.store)
    /\ filter (fun d => created_at d = VStr "2024-05-01T09:03:00") (Searches.items r)
       = [convert Sample.flight_search; convert Sample.train_search].
Proof.
  assert (exists r : Searches.t,
            list_recent_searches (H := ascii_py) SpecDatabase.get_documents 10 Sample.store
            = (Returns r, Sample.store)) as [r Hrun].
  { eexists. by vm_compute. }
  exists r. split; [exact Hrun|].
  rewrite (listing_ties_keep_retrieval_order (H := ascii_py) SpecDatabase.get_documents
             10 Sample.store Sample.store Sample.store Sample.docs r
             (VStr "2024-05-01T09:03:00") eq_refl Hrun).
  by vm_compute.
Defined.

Lemma listing_ids_and_dates_are_text_witness :
  exists r : Searches.t,
    list_recent_searches (H := ascii_py) SpecDatabase.get_documents 10 Sample.store
      = (Returns r, Sample.store)
    /\ Forall (fun d : doc =>
                 (forall v, d !! "_id" = Some v -> exists s, v = VStr s)
                 /\ (forall t, d !! "created_at" <> Some (VDatetime t)))
              (Searches.items r).
Proof.
  eexists. split; [by vm_compute|].
  apply (listing_ids_and_dates_are_text (H := ascii_py) SpecDatabase.get_documents
           10 Sample.store Sample.store).
  by vm_compute.
Defined.

Lemma listing_of_at_most_one_record_witness :
  list_recent_searches (H := ascii_py) SpecDatabase.get_documents 1 Foreign.store
  = (Returns (Searches.mk [convert Foreign.null_dated]), Foreign.store).
Proof.
  apply (listing_of_at_most_one_record (H := ascii_py) SpecDatabase.get_documents
           1 Foreign.store Foreign.store [Foreign.null_dated]).
  - reflexivity.
  - simpl. lia.
Defined.

Lemma listing_fails_on_unordered_keys_witness :
  serve (list_recent_searches (H := ascii_py) SpecDatabase.get_documents 10 Foreign.store).1
  = ErrorResponse 500 "'<' not supported between instances".
Proof.
  apply (listing_fails_on_unordered_keys (H := ascii_py) SpecDatabase.get_documents
           10 Foreign.store Foreign.store [Foreign.null_dated; Sample.flight_search]
           Foreign.null_dated Sample.flight_search).
  - reflexivity.
  - simpl. lia.
  - by left.
  - right. by left.
  - reflexivity.
Defined.

Lemma search_hotels_log_and_answer_witness :
  "paris" <> title (PyRuntime := ascii_py) "paris"
  /\ exists hs,
      (search_hotels (H := ascii_py) Sample.failing "paris" "2024-06-01" "2024-06-05" []).1
        = Returns hs
      /\ Forall (fun h => Some (VStr (HotelOption.location h)) <> Some (VStr "paris")) hs.
Proof.
  assert ("paris" <> title (PyRuntime := ascii_py) "paris") as Hne
    by (vm_compute; discriminate).
  split; [exact Hne|].
  destruct (search_hotels_log_and_answer (H := ascii_py) Sample.failing
              "paris" "2024-06-01" "2024-06-05" [])
    as (_ & _ & _ & _ & Hdiffer).
  exact (Hdiffer Hne).
Defined.


Lemma test_database_signals_disagree_witness :
  (exists r, test_database ∅ (Some Foreign.working) = Returns r
             /\ TestResponse.database r = "✅ Connected & Working"
             /\ TestResponse.database_url r = Some "❌ Not Set")
  /\ (exists r, test_database {[ "DATABASE_URL" := "mongodb://db:27017" ]} None = Returns r
                /\ TestResponse.database r = "⚠️ Available but not initialized"
                /\ TestResponse.database_url r = Some "✅ Set").
Proof.
  split.
  - apply (test_database_signals_disagree ∅ Foreign.working "travel" ["search"]);
      reflexivity.
  - apply (test_database_signals_disagree {[ "DATABASE_URL" := "mongodb://db:27017" ]}
             Foreign.working "travel" ["search"]); reflexivity.
Defined.

Lemma listing_newest_first_witness :
  valid_datetime Sample.may_2 /\ valid_datetime Sample.may_1
  /\ datetime_ltb Sample.may_2 Sample.may_1 = false.
Proof.
  assert (valid_datetime Sample.may_2) as Hv2 by (unfold valid_datetime; simpl; lia).
  assert (valid_datetime Sample.may_1) as Hv1 by (unfold valid_datetime; simpl; lia).
  split; [exact Hv2|]. split; [exact Hv1|].
  apply (listing_newest_first (H := ascii_py) SpecDatabase.get_documents
           10 Sample.store Sample.store
           (Searches.mk [convert Sample.hotel_search; convert Sample.flight_search;
                         convert Sample.train_search; convert Sample.foreign_record])
           0 1 Sample.hotel_search Sample.flight_search Sample.may_2 Sample.may_1);
    try reflexivity; try done.
  lia.
Defined.
